(** * TUndelayedDestruction: immediate destruction with a guard check

    Shallow embedding of [thrift/lib/cpp/async/TUndelayedDestruction.h].

    The header defines one class template,
    [TUndelayedDestruction<TDD>], deriving from its parameter [TDD] (a
    [TDelayedDestruction] type).  It adds no data member.  Its code is

    - a forwarding constructor (or [using TDD::TDD]),
    - a public destructor that calls [abort()] when the destructor guard
      count is not zero and otherwise calls [destroy()],
    - an override of [destroy()] that calls [TDD::destroy()],
    - an override of [destroyNow(bool)] that only asserts [!delayed].

    The deleted copy constructor and copy assignment operator have no code
    and so no counterpart here.

    The base [TDD] is a template parameter: it enters the development as an
    interface (a type class), and a small concrete base is given at the end
    of the definitions to run the code on. *)

From Stdlib Require Import ZArith List Bool Lia.
Import ListNotations.
Local Open Scope Z_scope.

(** ** Outcomes of running a piece of code *)

(** The ways a run of the code of this header ends the process:
    [abort()] from <cstdlib>, a failed [assert] from <cassert>, and
    [std::terminate()], which the language calls when an exception would
    leave a [noexcept] function or a destructor run by stack unwinding. *)
Inductive fatal : Type :=
| Sig_abort
| Assert_failed
| Std_terminate.

(** A call returns, leaves by an exception, or the process is terminated;
    each case carries the state reached at that point. *)
Inductive outcome (Exn S A : Type) : Type :=
| Returns (a : A) (s : S)
| Throws (e : Exn) (s : S)
| Terminates (f : fatal) (s : S).

Arguments Returns {Exn S A} a s.
Arguments Throws {Exn S A} e s.
Arguments Terminates {Exn S A} f s.

Definition final_state {Exn S A} (o : outcome Exn S A) : S :=
  match o with
  | Returns _ s => s
  | Throws _ s => s
  | Terminates _ s => s
  end.

Definition returned {Exn S A} (o : outcome Exn S A) : bool :=
  match o with
  | Returns _ _ => true
  | _ => false
  end.

Definition thrown {Exn S A} (o : outcome Exn S A) : bool :=
  match o with
  | Throws _ _ => true
  | _ => false
  end.

(** Code over a state [S] with result [A]. *)
Definition M (Exn S A : Type) : Type := S -> outcome Exn S A.

Definition ret {Exn S A} (a : A) : M Exn S A :=
  fun s => Returns a s.

Definition bind {Exn S A B} (m : M Exn S A) (k : A -> M Exn S B) : M Exn S B :=
  fun s =>
    match m s with
    | Returns a s' => k a s'
    | Throws e s' => Throws e s'
    | Terminates f s' => Terminates f s'
    end.

Definition gets {Exn S A} (f : S -> A) : M Exn S A :=
  fun s => Returns (f s) s.

Declare Scope cxx_scope.
Delimit Scope cxx_scope with cxx.
Notation "x <- m ;; k" := (bind m (fun x => k))
  (at level 61, m at next level, right associativity) : cxx_scope.
Notation "m ;; k" := (bind m (fun _ => k))
  (at level 61, right associativity) : cxx_scope.
Local Open Scope cxx_scope.

(** [abort()]: never returns. *)
Definition abort {Exn S A} : M Exn S A :=
  fun s => Terminates Sig_abort s.

(** Stack unwinding through an object: while the exception [e] is on its
    way the destructor [cleanup] is run; [e] goes on when it returns, and
    an exception leaving it calls [std::terminate()]. *)
Definition unwind {Exn S A} (e : Exn) (cleanup : M Exn S unit) : M Exn S A :=
  fun s =>
    match cleanup s with
    | Returns _ s' => Throws e s'
    | Throws _ s' => Terminates Std_terminate s'
    | Terminates f s' => Terminates f s'
    end.

(** A destructor of a derived class: its body, then the destructor of the
    base class.  When the body leaves by an exception, a [noexcept]
    destructor ends in [std::terminate()] there (the stack is not unwound
    first), and a [noexcept(false)] one has the base class destroyed on
    the exception's way out. *)
Definition destructor {Exn S} (is_noexcept : bool)
    (body base_dtor : M Exn S unit) : M Exn S unit :=
  fun s =>
    match body s with
    | Returns _ s1 => base_dtor s1
    | Throws e s1 =>
        if is_noexcept then Terminates Std_terminate s1
        else unwind e base_dtor s1
    | Terminates f s1 => Terminates f s1
    end.

(** [assert(e)] of <cassert>: expands to nothing when [NDEBUG] is defined,
    and otherwise terminates the process when [e] is false. *)
Definition assert_ {Exn S} (NDEBUG : bool) (e : bool) : M Exn S unit :=
  if NDEBUG then ret tt
  else if e then ret tt
  else fun s => Terminates Assert_failed s.

(** ** Arguments and [std::forward] *)

(** An argument expression is an lvalue or an rvalue. *)
Inductive value_category : Type :=
| lvalue
| rvalue.

(** The reference part of a type: [T], [T&] or [T&&]. *)
Inductive ref_qual : Type :=
| NoRef
| LRef
| RRef.

(** Reference collapsing: [collapse q r] is the reference part of
    [(T q) r]. *)
Definition collapse (q r : ref_qual) : ref_qual :=
  match q, r with
  | NoRef, r => r
  | q, NoRef => q
  | RRef, RRef => RRef
  | _, _ => LRef
  end.

(** What [Args] is deduced to from a parameter [Args&&]: [T&] for an lvalue
    argument of type [T], and [T] for an rvalue. *)
Definition deduce (c : value_category) : ref_qual :=
  match c with
  | lvalue => LRef
  | rvalue => NoRef
  end.

(** The value category of an expression of reference type. *)
Definition category_of (q : ref_qual) : value_category :=
  match q with
  | LRef => lvalue
  | _ => rvalue
  end.

(** An argument: its (cv-qualified) object type, its value category and
    the object it denotes. *)
Record argument (Ty Val : Type) : Type := mk_argument {
  arg_type : Ty;
  arg_category : value_category;
  arg_value : Val
}.

Arguments mk_argument {Ty Val} _ _ _.
Arguments arg_type {Ty Val} _.
Arguments arg_category {Ty Val} _.
Arguments arg_value {Ty Val} _.

(** [std::forward<Args>(a)] is [static_cast<Args&&>(a)]: the same object,
    at the same type, with the value category of [Args&&]. *)
Definition forward {Ty Val} (Args : ref_qual) (a : argument Ty Val)
  : argument Ty Val :=
  mk_argument (arg_type a) (category_of (collapse Args RRef)) (arg_value a).

(** The pack expansion [std::forward<Args>(args)...], each [Args] being the
    one deduced for its argument. *)
Definition forward_pack {Ty Val} (args : list (argument Ty Val))
  : list (argument Ty Val) :=
  map (fun a => forward (deduce (arg_category a)) a) args.

(** ** The base class [TDD] *)

(** What the header uses of its template parameter.  [World] is the program
    state, the object under construction or destruction included.

    [TDD_destroy] is [TDD::destroy()]; it may call the virtual
    [destroyNow(bool)], so it takes the final overrider of [destroyNow] as
    its first argument.  [TDD_dtor] is [TDD::~TDD()], and
    [TDD_dtor_noexcept] tells whether it is [noexcept]; if it is, no
    exception leaves it. *)
Class DelayedDestruction (Exn Ty Val World : Type) : Type := {
  TDD_ctor : list (argument Ty Val) -> M Exn World unit;
  getDestructorGuardCount : World -> Z;
  TDD_destroy : (bool -> M Exn World unit) -> M Exn World unit;
  TDD_dtor : M Exn World unit;
  TDD_dtor_noexcept : bool;
  TDD_dtor_noexcept_ok :
    TDD_dtor_noexcept = true -> forall w : World, thrown (TDD_dtor w) = false
}.

(** ** The calls made on behalf of the adapter *)

(** The calls are recorded in order, next to the program state, so that
    "how often" and "before" can be stated.  The base's code runs on
    [World] alone and cannot touch the record. *)
Inductive call : Type :=
| Call_getDestructorGuardCount
| Call_abort
| Call_destroy
| Call_TDD_destroy
| Call_TDD_dtor.

Definition call_eq_dec (a b : call) : {a = b} + {a <> b}.
Proof. decide equality. Defined.

Record machine (World : Type) : Type := mk_machine {
  world : World;
  calls : list call
}.

Arguments mk_machine {World} _ _.
Arguments world {World} _.
Arguments calls {World} _.

Definition record_call {Exn World} (c : call) : M Exn (machine World) unit :=
  fun st => Returns tt (mk_machine (world st) (calls st ++ [c])).

(** Running code of the base inside the machine: the record is kept. *)
Definition lift {Exn World A} (m : M Exn World A) : M Exn (machine World) A :=
  fun st =>
    match m (world st) with
    | Returns a w => Returns a (mk_machine w (calls st))
    | Throws e w => Throws e (mk_machine w (calls st))
    | Terminates f w => Terminates f (mk_machine w (calls st))
    end.

(** The outcome on the program state alone. *)
Definition on_world {Exn World A} (o : outcome Exn (machine World) A)
  : outcome Exn World A :=
  match o with
  | Returns a st => Returns a (world st)
  | Throws e st => Throws e (world st)
  | Terminates f st => Terminates f (world st)
  end.

(** The calls a piece of code makes when started in [w]. *)
Definition calls_of {Exn World A} (m : M Exn (machine World) A) (w : World)
  : list call :=
  calls (final_state (m (mk_machine w []))).

(** ** The class template [TUndelayedDestruction<TDD>] *)

Section TUndelayedDestruction.

Context {Exn Ty Val World : Type}.
Context {TDD : DelayedDestruction Exn Ty Val World}.

(** The two preprocessor symbols the header depends on. *)
Variable THRIFT_HAVE_CONSTRUCTOR_INHERITANCE : bool.
Variable NDEBUG : bool.

(** The constructor: [using TDD::TDD], or
    [explicit TUndelayedDestruction(Args&& ...args)
       : TDD(std::forward<Args>(args)...) {}]. *)
Definition TUndelayedDestruction_ctor (args : list (argument Ty Val))
  : M Exn World unit :=
  if THRIFT_HAVE_CONSTRUCTOR_INHERITANCE then TDD_ctor args
  else (TDD_ctor (forward_pack args) ;; ret tt).

(** [virtual void destroyNow(bool delayed)]. *)
Definition destroyNow {S : Type} (delayed : bool) : M Exn S unit :=
  assert_ NDEBUG (negb delayed) ;;
  ret tt.

(** [virtual void destroy() { this->TDD::destroy(); }].  The object's
    [destroyNow] is the one above. *)
Definition destroy : M Exn (machine World) unit :=
  record_call Call_TDD_destroy ;;
  lift (TDD_destroy destroyNow).

(** Lines 84 to 86: the guard check. *)
Definition guard_check : M Exn (machine World) unit :=
  g <- (record_call Call_getDestructorGuardCount ;;
        gets (fun st => getDestructorGuardCount (world st))) ;;
  if negb (g =? 0) then (record_call Call_abort ;; abort)
  else ret tt.

(** The body of [~TUndelayedDestruction()].  [this->destroy()] is a
    virtual call; while this destructor runs the object's type is
    [TUndelayedDestruction<TDD>], so the call reaches [destroy] above. *)
Definition dtor_body : M Exn (machine World) unit :=
  guard_check ;;
  record_call Call_destroy ;;
  destroy.

(** [~TUndelayedDestruction()]: the body, then the destructor of the
    base class.  The destructor is declared without an exception
    specification and the class has no member, so it is [noexcept] exactly
    when [~TDD()] is.  The header has no [try] block: an exception from
    [TDD::destroy()] leaves the body. *)
Definition TUndelayedDestruction_dtor : M Exn (machine World) unit :=
  destructor TDD_dtor_noexcept
    dtor_body
    (record_call Call_TDD_dtor ;; lift TDD_dtor).

End TUndelayedDestruction.

(** ** A concrete base class *)

(** A small [TDelayedDestruction] type to run the adapter on: an object
    watching a list of descriptors.  Its constructor takes any number of
    descriptors and throws on a negative one; its [destroy()] stops
    watching and then follows the guard protocol: with guards outstanding
    it only marks the destruction pending, otherwise it calls
    [destroyNow(false)]. *)
Module Sample.

Inductive exn : Type :=
| Bad_descriptor.

Inductive ty : Type :=
| T_int.

Record object : Type := mk_object {
  guardCount_ : Z;
  destroyPending_ : bool;
  watched_ : list (value_category * Z);
  watching_ : bool
}.

(** Storage before construction. *)
Definition raw : object := mk_object 0 false [] false.

Definition ctor (args : list (argument ty Z)) : M exn object unit :=
  fun w =>
    if existsb (fun a => arg_value a <? 0) args then Throws Bad_descriptor w
    else Returns tt
           (mk_object 0 false
              (map (fun a => (arg_category a, arg_value a)) args) true).

Definition stop_watching : M exn object unit :=
  fun w =>
    Returns tt
      (mk_object (guardCount_ w) (destroyPending_ w) (watched_ w) false).

Definition set_destroyPending : M exn object unit :=
  fun w =>
    Returns tt (mk_object (guardCount_ w) true (watched_ w) (watching_ w)).

Definition base_destroy (destroyNow : bool -> M exn object unit)
  : M exn object unit :=
  stop_watching ;;
  g <- gets guardCount_ ;;
  if negb (g =? 0) then set_destroyPending
  else destroyNow false.

(** A base whose [destroy()] reports a deferred destruction. *)
Definition deferring_destroy (destroyNow : bool -> M exn object unit)
  : M exn object unit :=
  destroyNow true.

#[export] Instance base : DelayedDestruction exn ty Z object := {|
  TDD_ctor := ctor;
  getDestructorGuardCount := guardCount_;
  TDD_destroy := base_destroy;
  TDD_dtor := ret tt;
  TDD_dtor_noexcept := true;
  TDD_dtor_noexcept_ok := fun _ _ => eq_refl
|}.

(** What a [DestructorGuard] does to the object when it is created and
    when it goes away. *)
Definition guard_enter (w : object) : object :=
  mk_object (guardCount_ w + 1) (destroyPending_ w) (watched_ w)
    (watching_ w).

Definition guard_leave (w : object) : object :=
  mk_object (guardCount_ w - 1) (destroyPending_ w) (watched_ w)
    (watching_ w).

Definition int_arg (c : value_category) (v : Z) : argument ty Z :=
  mk_argument T_int c v.

(** The object after [stop_watching]. *)
Definition stopped (w : object) : object :=
  mk_object (guardCount_ w) (destroyPending_ w) (watched_ w) false.

(** The same class with the other [destroy()]. *)
Definition deferring_base : DelayedDestruction exn ty Z object := {|
  TDD_ctor := ctor;
  getDestructorGuardCount := guardCount_;
  TDD_destroy := deferring_destroy;
  TDD_dtor := ret tt;
  TDD_dtor_noexcept := true;
  TDD_dtor_noexcept_ok := fun _ _ => eq_refl
|}.

(** A base whose [destroy()] throws, with a destructor that marks the
    object; the destructor is [noexcept] in the first class and
    [noexcept(false)] in the second. *)
Definition throwing_destroy (destroyNow : bool -> M exn object unit)
  : M exn object unit :=
  fun w => Throws Bad_descriptor w.

Definition throwing_base : DelayedDestruction exn ty Z object := {|
  TDD_ctor := ctor;
  getDestructorGuardCount := guardCount_;
  TDD_destroy := throwing_destroy;
  TDD_dtor := set_destroyPending;
  TDD_dtor_noexcept := true;
  TDD_dtor_noexcept_ok := fun _ _ => eq_refl
|}.

Definition throwing_base_unwinding : DelayedDestruction exn ty Z object := {|
  TDD_ctor := ctor;
  getDestructorGuardCount := guardCount_;
  TDD_destroy := throwing_destroy;
  TDD_dtor := set_destroyPending;
  TDD_dtor_noexcept := false;
  TDD_dtor_noexcept_ok :=
    fun (H : false = true) _ => False_ind _ (Bool.diff_false_true H)
|}.

(** The object after [set_destroyPending]. *)
Definition marked (w : object) : object :=
  mk_object (guardCount_ w) true (watched_ w) (watching_ w).

(** [~TUndelayedDestruction<Sample>()]. *)
Definition dtor (NDEBUG : bool) : M exn (machine object) unit :=
  TUndelayedDestruction_dtor (TDD := base) NDEBUG.

(** The object built by [TUndelayedDestruction<Sample> x(3, std::move(y))]
    with [y == 4]. *)
Definition built : object :=
  mk_object 0 false [(lvalue, 3); (rvalue, 4)] true.

End Sample.

(** * Properties *)

(** ** Running the code *)

Lemma bind_ret_unit {Exn S} (m : M Exn S unit) (s : S) :
  (m ;; ret tt) s = m s.
Proof.
  unfold bind, ret.
  destruct (m s) as [[] s' | e s' | f s']; reflexivity.
Qed.

Lemma app_two {A} (l : list A) (a b : A) :
  (l ++ [a]) ++ [b] = l ++ [a; b].
Proof. rewrite <- app_assoc. reflexivity. Qed.

Lemma category_roundtrip (c : value_category) :
  category_of (collapse (deduce c) RRef) = c.
Proof. destruct c; reflexivity. Qed.

Lemma forward_deduced {Ty Val} (a : argument Ty Val) :
  forward (deduce (arg_category a)) a = a.
Proof.
  destruct a as [t c v]. unfold forward. simpl.
  rewrite category_roundtrip. reflexivity.
Qed.

Lemma forward_pack_id {Ty Val} (args : list (argument Ty Val)) :
  forward_pack args = args.
Proof.
  induction args as [| a args IH]; simpl.
  - reflexivity.
  - rewrite forward_deduced. f_equal. exact IH.
Qed.

Section Properties.

Context {Exn Ty Val World : Type}.
Context {TDD : DelayedDestruction Exn Ty Val World}.

Implicit Types (st : machine World) (w : World).

Lemma ctor_is_TDD_ctor (inherit : bool) (args : list (argument Ty Val)) w :
  TUndelayedDestruction_ctor inherit args w = TDD_ctor args w.
Proof.
  unfold TUndelayedDestruction_ctor. destruct inherit.
  - reflexivity.
  - rewrite bind_ret_unit, forward_pack_id. reflexivity.
Qed.

Lemma guard_check_nonzero st :
  getDestructorGuardCount (world st) <> 0 ->
  guard_check (Exn := Exn) st =
  Terminates Sig_abort
    (mk_machine (world st)
       (calls st ++ [Call_getDestructorGuardCount; Call_abort])).
Proof.
  intros Hg. unfold guard_check, bind, record_call, gets, abort. simpl.
  apply Z.eqb_neq in Hg. rewrite Hg. simpl.
  rewrite app_two. reflexivity.
Qed.

Lemma guard_check_zero st :
  getDestructorGuardCount (world st) = 0 ->
  guard_check (Exn := Exn) st =
  Returns tt
    (mk_machine (world st) (calls st ++ [Call_getDestructorGuardCount])).
Proof.
  intros Hg. unfold guard_check, bind, record_call, gets, ret. simpl.
  rewrite Hg. reflexivity.
Qed.

Lemma dtor_body_nonzero (NDEBUG : bool) st :
  getDestructorGuardCount (world st) <> 0 ->
  dtor_body NDEBUG st =
  Terminates Sig_abort
    (mk_machine (world st)
       (calls st ++ [Call_getDestructorGuardCount; Call_abort])).
Proof.
  intros Hg. unfold dtor_body.
  unfold bind at 1. rewrite (guard_check_nonzero st Hg). reflexivity.
Qed.

Lemma dtor_body_zero (NDEBUG : bool) st :
  getDestructorGuardCount (world st) = 0 ->
  dtor_body NDEBUG st =
  lift (TDD_destroy (destroyNow NDEBUG))
    (mk_machine (world st)
       (calls st ++ [Call_getDestructorGuardCount; Call_destroy;
                     Call_TDD_destroy])).
Proof.
  intros Hg. unfold dtor_body.
  unfold bind at 1. rewrite (guard_check_zero st Hg).
  unfold destroy, bind, record_call. simpl.
  rewrite !app_two, <- !app_assoc. reflexivity.
Qed.

Lemma dtor_nonzero (NDEBUG : bool) st :
  getDestructorGuardCount (world st) <> 0 ->
  TUndelayedDestruction_dtor NDEBUG st =
  Terminates Sig_abort
    (mk_machine (world st)
       (calls st ++ [Call_getDestructorGuardCount; Call_abort])).
Proof.
  intros Hg. unfold TUndelayedDestruction_dtor, destructor.
  rewrite (dtor_body_nonzero NDEBUG st Hg). reflexivity.
Qed.

(** With a zero count the destructor is the record of its calls around
    the base's [destroy()] and destructor. *)
Lemma dtor_zero (NDEBUG : bool) st :
  getDestructorGuardCount (world st) = 0 ->
  TUndelayedDestruction_dtor NDEBUG st =
  match TDD_destroy (destroyNow NDEBUG) (world st) with
  | Returns _ w1 =>
      lift TDD_dtor
        (mk_machine w1
           (calls st ++ [Call_getDestructorGuardCount; Call_destroy;
                         Call_TDD_destroy; Call_TDD_dtor]))
  | Throws e w1 =>
      if TDD_dtor_noexcept then
        Terminates Std_terminate
          (mk_machine w1
             (calls st ++ [Call_getDestructorGuardCount; Call_destroy;
                           Call_TDD_destroy]))
      else
        unwind e (lift TDD_dtor)
          (mk_machine w1
             (calls st ++ [Call_getDestructorGuardCount; Call_destroy;
                           Call_TDD_destroy; Call_TDD_dtor]))
  | Terminates f w1 =>
      Terminates f
        (mk_machine w1
           (calls st ++ [Call_getDestructorGuardCount; Call_destroy;
                         Call_TDD_destroy]))
  end.
Proof.
  intros Hg. unfold TUndelayedDestruction_dtor, destructor.
  rewrite (dtor_body_zero NDEBUG st Hg). unfold lift at 1. simpl.
  destruct (TDD_destroy (destroyNow NDEBUG) (world st)) as [a w1 | e w1 | f w1].
  - unfold bind, record_call. simpl. rewrite <- app_assoc. reflexivity.
  - destruct TDD_dtor_noexcept; [reflexivity |].
    unfold unwind, bind, record_call. simpl. rewrite <- app_assoc.
    reflexivity.
  - reflexivity.
Qed.

(** The base destructor leaves the record of calls alone. *)
Lemma calls_of_lift_TDD_dtor (w1 : World) (cs : list call) :
  calls (final_state (lift (Exn := Exn) TDD_dtor (mk_machine w1 cs))) = cs.
Proof. unfold lift. simpl. destruct (TDD_dtor w1); reflexivity. Qed.

(** The calls made by the destructor entered with a zero count. *)
Lemma calls_of_dtor_zero (NDEBUG : bool) w :
  getDestructorGuardCount w = 0 ->
  calls_of (TUndelayedDestruction_dtor NDEBUG) w =
  [Call_getDestructorGuardCount; Call_destroy; Call_TDD_destroy] ++
  (if returned (TDD_destroy (destroyNow NDEBUG) w)
      || (thrown (TDD_destroy (destroyNow NDEBUG) w)
          && negb TDD_dtor_noexcept)
   then [Call_TDD_dtor]
   else []).
Proof.
  intros Hg. unfold calls_of.
  rewrite (dtor_zero NDEBUG (mk_machine w [])) by exact Hg. simpl.
  destruct (TDD_destroy (destroyNow NDEBUG) w) as [a w1 | e w1 | f w1];
    simpl.
  - apply calls_of_lift_TDD_dtor.
  - destruct TDD_dtor_noexcept; simpl; [reflexivity |].
    unfold unwind, lift. simpl. destruct (TDD_dtor w1); reflexivity.
  - reflexivity.
Qed.

Lemma calls_of_dtor_nonzero (NDEBUG : bool) w :
  getDestructorGuardCount w <> 0 ->
  calls_of (TUndelayedDestruction_dtor NDEBUG) w =
  [Call_getDestructorGuardCount; Call_abort].
Proof.
  intros Hg. unfold calls_of.
  rewrite (dtor_nonzero NDEBUG (mk_machine w [])) by exact Hg.
  reflexivity.
Qed.

(** ** The destructor *)

(** C1. Whenever the destructor guard count is positive when
    [~TUndelayedDestruction()] runs, the process is terminated by
    [abort()].  The program state at that point is the one the destructor
    was entered with, and the only calls made are the read of the count and
    [abort()] itself: [destroy()], [TDD::destroy()] and the base destructor
    have not run. *)
Theorem dtor_aborts_with_outstanding_guards (NDEBUG : bool) st :
  0 < getDestructorGuardCount (world st) ->
  TUndelayedDestruction_dtor NDEBUG st =
  Terminates Sig_abort
    (mk_machine (world st)
       (calls st ++ [Call_getDestructorGuardCount; Call_abort]))
  /\ calls_of (TUndelayedDestruction_dtor NDEBUG) (world st) =
     [Call_getDestructorGuardCount; Call_abort].
Proof.
  intros Hg.
  assert (Hne : getDestructorGuardCount (world st) <> 0) by lia.
  split.
  - apply dtor_nonzero; exact Hne.
  - apply calls_of_dtor_nonzero; exact Hne.
Qed.

(** C2. When the guard count is zero and the base's [destroy()] and
    destructor return, [~TUndelayedDestruction()] returns, and it has
    called [TDD::destroy()] exactly once, from the adapter's own
    [destroy()], which the destructor called. *)
Theorem dtor_zero_guard_tears_down_once (NDEBUG : bool) st w1 w2 :
  getDestructorGuardCount (world st) = 0 ->
  TDD_destroy (destroyNow NDEBUG) (world st) = Returns tt w1 ->
  TDD_dtor w1 = Returns tt w2 ->
  TUndelayedDestruction_dtor NDEBUG st =
  Returns tt
    (mk_machine w2
       (calls st ++ [Call_getDestructorGuardCount; Call_destroy;
                     Call_TDD_destroy; Call_TDD_dtor]))
  /\ count_occ call_eq_dec
       (calls_of (TUndelayedDestruction_dtor NDEBUG) (world st))
       Call_TDD_destroy = 1%nat.
Proof.
  intros Hg Hdestroy Hdtor. split.
  - rewrite (dtor_zero NDEBUG st Hg), Hdestroy.
    unfold lift. simpl. rewrite Hdtor. reflexivity.
  - rewrite (calls_of_dtor_zero NDEBUG (world st) Hg), Hdestroy.
    reflexivity.
Qed.

(** C6. The adapter's own code leaves the program state as it found it:
    the guard check ends in the state it started in, guard count included,
    and [destroyNow] ends in the state it started in.  The effect of the
    whole destructor on the program state is that of the base's teardown:
    of [TDD::destroy()], started in the state the destructor was entered
    with, and of the base destructor after it, put together the way the
    language puts a destructor body and a base destructor together (or no
    effect at all when the check aborts).  So the state the destructor
    ends in is the entry state, the one [TDD::destroy()] left, or the one
    [~TDD()] left after that. *)
Theorem dtor_effect_is_base_teardown (NDEBUG : bool) st :
  world (final_state (guard_check (Exn := Exn) st)) = world st
  /\ getDestructorGuardCount
       (world (final_state (guard_check (Exn := Exn) st))) =
     getDestructorGuardCount (world st)
  /\ (forall (delayed : bool) w,
        final_state (destroyNow (Exn := Exn) NDEBUG delayed w) = w)
  /\ on_world (TUndelayedDestruction_dtor NDEBUG st) =
     (if getDestructorGuardCount (world st) =? 0
      then destructor TDD_dtor_noexcept
             (TDD_destroy (destroyNow NDEBUG)) TDD_dtor (world st)
      else Terminates Sig_abort (world st))
  /\ (let w1 := final_state (TDD_destroy (destroyNow NDEBUG) (world st)) in
      let w' := world (final_state (TUndelayedDestruction_dtor NDEBUG st)) in
      w' = world st \/ w' = w1 \/ w' = final_state (TDD_dtor w1)).
Proof.
  assert (Hw : world (final_state (guard_check (Exn := Exn) st)) = world st).
  { destruct (Z.eq_dec (getDestructorGuardCount (world st)) 0) as [Hg | Hg].
    - rewrite (guard_check_zero st Hg). reflexivity.
    - rewrite (guard_check_nonzero st Hg). reflexivity. }
  split; [exact Hw |]. split; [rewrite Hw; reflexivity |]. split.
  { intros delayed w. unfold destroyNow, assert_, bind, ret.
    destruct NDEBUG, delayed; reflexivity. }
  destruct (Z.eqb_spec (getDestructorGuardCount (world st)) 0) as [Hg | Hg].
  - rewrite (dtor_zero NDEBUG st Hg). unfold destructor.
    destruct (TDD_destroy (destroyNow NDEBUG) (world st))
      as [a w1 | e w1 | f w1]; simpl.
    + unfold lift. simpl. destruct (TDD_dtor w1); simpl; auto.
    + destruct TDD_dtor_noexcept; simpl; [auto |].
      unfold unwind, lift. simpl. destruct (TDD_dtor w1); simpl; auto.
    + auto.
  - rewrite (dtor_nonzero NDEBUG st Hg). simpl. auto.
Qed.

(** C8. The check is an inequality with zero.  For every integer value of
    the guard count, negative ones included, the destructor ends in the
    [abort()] of the check if and only if the count is not zero, and it
    goes on to [destroy()] if and only if the count is zero. *)
Theorem dtor_aborts_iff_count_nonzero (NDEBUG : bool) w :
  ((exists st',
       TUndelayedDestruction_dtor NDEBUG (mk_machine w []) =
       Terminates Sig_abort st'
       /\ In Call_abort (calls st'))
   <-> getDestructorGuardCount w <> 0)
  /\ (In Call_destroy (calls_of (TUndelayedDestruction_dtor NDEBUG) w)
      <-> getDestructorGuardCount w = 0).
Proof.
  split; split.
  - intros [st' [Hrun Hin]] Hg.
    pose proof (calls_of_dtor_zero NDEBUG w Hg) as Hcalls.
    unfold calls_of in Hcalls. rewrite Hrun in Hcalls. simpl in Hcalls.
    rewrite Hcalls in Hin.
    match type of Hin with
    | context [if ?b then _ else _] => destruct b
    end; simpl in Hin; intuition discriminate.
  - intros Hg. eexists. split.
    + apply (dtor_nonzero NDEBUG (mk_machine w [])). exact Hg.
    + simpl. auto.
  - intros Hin.
    destruct (Z.eq_dec (getDestructorGuardCount w) 0) as [Hg | Hg];
      [exact Hg |].
    rewrite (calls_of_dtor_nonzero NDEBUG w Hg) in Hin. simpl in Hin.
    intuition discriminate.
  - intros Hg. rewrite (calls_of_dtor_zero NDEBUG w Hg). simpl. auto.
Qed.

(** ** The constructor *)


(** C7. The constructor adds no check of its own and no translation: it
    leaves by an exception exactly when [TDD]'s constructor does on the
    same arguments, with the same exception and in the same state, and it
    returns exactly when [TDD]'s constructor returns. *)
Theorem ctor_failure_is_TDD_failure (inherit : bool)
    (args : list (argument Ty Val)) w :
  (forall (e : Exn) w',
      TDD_ctor args w = Throws e w' <->
      TUndelayedDestruction_ctor inherit args w = Throws e w')
  /\ returned (TUndelayedDestruction_ctor inherit args w) =
     returned (TDD_ctor args w).
Proof.
  rewrite ctor_is_TDD_ctor. split.
  - intros e w'. reflexivity.
  - reflexivity.
Qed.

End Properties.

(** ** The [destroyNow] override *)

(** C4. In a build without [NDEBUG], [destroyNow(true)] fails its
    assertion and the process is terminated there.  [destroyNow(false)]
    returns in the state it was called in, in every build, and so does
    [destroyNow] with either flag when [NDEBUG] is defined. *)
Theorem destroyNow_asserts_not_delayed {Exn S : Type} (s : S) :
  (let NDEBUG := false in
   destroyNow (Exn := Exn) NDEBUG true s = Terminates Assert_failed s)
  /\ (forall NDEBUG : bool,
        destroyNow (Exn := Exn) NDEBUG false s = Returns tt s)
  /\ (forall delayed : bool,
        let NDEBUG := true in
        destroyNow (Exn := Exn) NDEBUG delayed s = Returns tt s).
Proof.
  split; [reflexivity |]. split.
  - intros []; reflexivity.
  - intros []; reflexivity.
Qed.

(** ** The adapter over the sample base *)

Module SampleRuns.

Import Sample.

(** Construction through the forwarding constructor builds the object the
    base constructor builds. *)
Example construct_two_arguments :
  TUndelayedDestruction_ctor (TDD := base) false
    [int_arg lvalue 3; int_arg rvalue 4] raw = Returns tt built.
Proof. reflexivity. Qed.

Example construct_no_argument :
  TUndelayedDestruction_ctor (TDD := base) false [] raw =
  Returns tt (mk_object 0 false [] true).
Proof. reflexivity. Qed.

Example construct_bad_descriptor :
  TUndelayedDestruction_ctor (TDD := base) false
    [int_arg lvalue 3; int_arg rvalue (-1)] raw = Throws Bad_descriptor raw.
Proof. reflexivity. Qed.

(** Guard count 0: the object is torn down. *)
Example destroy_unguarded :
  dtor false (mk_machine built []) =
  Returns tt
    (mk_machine (stopped built)
       [Call_getDestructorGuardCount; Call_destroy; Call_TDD_destroy;
        Call_TDD_dtor]).
Proof. reflexivity. Qed.

(** Guard count 1: the process is aborted and the object is untouched. *)
Example destroy_with_one_guard :
  dtor false (mk_machine (guard_enter built) []) =
  Terminates Sig_abort
    (mk_machine (guard_enter built)
       [Call_getDestructorGuardCount; Call_abort]).
Proof. reflexivity. Qed.

(** Guard count 2, then 1: still aborted. *)
Example destroy_after_one_of_two_guards_left :
  dtor false (mk_machine (guard_leave (guard_enter (guard_enter built))) []) =
  Terminates Sig_abort
    (mk_machine (guard_leave (guard_enter (guard_enter built)))
       [Call_getDestructorGuardCount; Call_abort]).
Proof. reflexivity. Qed.

(** A negative count is not zero either. *)
Example destroy_with_negative_count :
  dtor true (mk_machine (guard_leave built) []) =
  Terminates Sig_abort
    (mk_machine (guard_leave built)
       [Call_getDestructorGuardCount; Call_abort]).
Proof. reflexivity. Qed.

(** A base whose [destroy()] asks for a delayed destruction trips the
    assertion of [destroyNow] in a build without [NDEBUG], and goes
    unnoticed in a build with it. *)
Example deferring_base_debug :
  TUndelayedDestruction_dtor (TDD := deferring_base) false
    (mk_machine built []) =
  Terminates Assert_failed
    (mk_machine built
       [Call_getDestructorGuardCount; Call_destroy; Call_TDD_destroy]).
Proof. reflexivity. Qed.

Example deferring_base_release :
  TUndelayedDestruction_dtor (TDD := deferring_base) true
    (mk_machine built []) =
  Returns tt
    (mk_machine built
       [Call_getDestructorGuardCount; Call_destroy; Call_TDD_destroy;
        Call_TDD_dtor]).
Proof. reflexivity. Qed.

(** An exception from [TDD::destroy()]: [std::terminate()] at once when
    the destructor is [noexcept], and otherwise the base destructor on the
    exception's way out. *)
Example throwing_base_terminates :
  TUndelayedDestruction_dtor (TDD := throwing_base) false
    (mk_machine built []) =
  Terminates Std_terminate
    (mk_machine built
       [Call_getDestructorGuardCount; Call_destroy; Call_TDD_destroy]).
Proof. reflexivity. Qed.

Example throwing_base_unwinds :
  TUndelayedDestruction_dtor (TDD := throwing_base_unwinding) false
    (mk_machine built []) =
  Throws Bad_descriptor
    (mk_machine (marked built)
       [Call_getDestructorGuardCount; Call_destroy; Call_TDD_destroy;
        Call_TDD_dtor]).
Proof. reflexivity. Qed.

Lemma dtor_aborts_with_outstanding_guards_witness :
  0 < guardCount_ (guard_enter built)
  /\ dtor false (mk_machine (guard_enter built) []) =
     Terminates Sig_abort
       (mk_machine (guard_enter built)
          [Call_getDestructorGuardCount; Call_abort]).
Proof.
  split; [reflexivity |].
  apply (dtor_aborts_with_outstanding_guards (TDD := base) false
           (mk_machine (guard_enter built) [])).
  reflexivity.
Defined.

Lemma dtor_zero_guard_tears_down_once_witness :
  guardCount_ built = 0
  /\ base_destroy (destroyNow false) built = Returns tt (stopped built)
  /\ dtor false (mk_machine built []) =
     Returns tt
       (mk_machine (stopped built)
          [Call_getDestructorGuardCount; Call_destroy; Call_TDD_destroy;
           Call_TDD_dtor])
  /\ count_occ call_eq_dec (calls_of (dtor false) built) Call_TDD_destroy =
     1%nat.
Proof.
  split; [reflexivity |]. split; [reflexivity |].
  apply (dtor_zero_guard_tears_down_once (TDD := base) false
           (mk_machine built []) (stopped built) (stopped built));
    reflexivity.
Defined.

End SampleRuns.

(** * Further properties of the destructor *)

Section DestructorProtocol.

Context {Exn Ty Val World : Type}.
Context {TDD : DelayedDestruction Exn Ty Val World}.

Implicit Types (st : machine World) (w : World).

(** The destructor only adds to the record of calls. *)
Lemma dtor_appends_calls (NDEBUG : bool) st :
  calls (final_state (TUndelayedDestruction_dtor NDEBUG st)) =
  calls st ++ calls_of (TUndelayedDestruction_dtor NDEBUG) (world st).
Proof.
  destruct (Z.eq_dec (getDestructorGuardCount (world st)) 0) as [Hg | Hg].
  - rewrite (calls_of_dtor_zero NDEBUG (world st) Hg).
    rewrite (dtor_zero NDEBUG st Hg).
    destruct (TDD_destroy (destroyNow NDEBUG) (world st))
      as [a w1 | e w1 | f w1]; simpl.
    + apply calls_of_lift_TDD_dtor.
    + destruct TDD_dtor_noexcept; simpl; [reflexivity |].
      unfold unwind, lift. simpl. destruct (TDD_dtor w1); reflexivity.
    + reflexivity.
  - rewrite (calls_of_dtor_nonzero NDEBUG (world st) Hg).
    rewrite (dtor_nonzero NDEBUG st Hg). reflexivity.
Qed.

(** X1. Whatever the base does and whatever the guard count is, the calls
    of [~TUndelayedDestruction()] have one of three shapes: the count is
    read and [abort()] is called; or the count is read and [destroy()]
    calls [TDD::destroy()]; or the base destructor follows these.  So the
    guard count is read exactly once, before anything else, and is not
    looked at again after the teardown; [TDD::destroy()] is never called
    twice; and [abort()] is never called once [destroy()] has been. *)
Theorem dtor_call_shapes (NDEBUG : bool) st :
  let cs := calls_of (TUndelayedDestruction_dtor NDEBUG) (world st) in
  calls (final_state (TUndelayedDestruction_dtor NDEBUG st)) = calls st ++ cs
  /\ (cs = [Call_getDestructorGuardCount; Call_abort]
      \/ cs = [Call_getDestructorGuardCount; Call_destroy; Call_TDD_destroy]
      \/ cs = [Call_getDestructorGuardCount; Call_destroy; Call_TDD_destroy;
               Call_TDD_dtor])
  /\ hd_error cs = Some Call_getDestructorGuardCount
  /\ count_occ call_eq_dec cs Call_getDestructorGuardCount = 1%nat
  /\ (count_occ call_eq_dec cs Call_TDD_destroy <= 1)%nat
  /\ ~ (In Call_abort cs /\ In Call_destroy cs).
Proof.
  intros cs. split; [apply dtor_appends_calls |].
  assert (Hshape :
            cs = [Call_getDestructorGuardCount; Call_abort]
            \/ cs = [Call_getDestructorGuardCount; Call_destroy;
                     Call_TDD_destroy]
            \/ cs = [Call_getDestructorGuardCount; Call_destroy;
                     Call_TDD_destroy; Call_TDD_dtor]).
  { subst cs.
    destruct (Z.eq_dec (getDestructorGuardCount (world st)) 0) as [Hg | Hg].
    - rewrite (calls_of_dtor_zero NDEBUG (world st) Hg).
      match goal with
      | |- context [if ?b then _ else _] => destruct b
      end; simpl; auto.
    - rewrite (calls_of_dtor_nonzero NDEBUG (world st) Hg). auto. }
  split; [exact Hshape |].
  destruct Hshape as [H | [H | H]]; rewrite H; simpl;
    repeat split; try lia; intros [Ha Hd]; simpl in *;
    intuition discriminate.
Qed.

(** X2. The build only matters through [destroyNow(true)].  When, in the
    state the destructor is entered with, [TDD::destroy()] passes nothing
    but [false] to [destroyNow], the destructor built without [NDEBUG] and
    the one built with it have the same outcome, state and calls. *)
Theorem dtor_builds_agree st :
  (forall dn : bool -> M Exn World unit,
      TDD_destroy dn (world st) = TDD_destroy (fun _ => dn false) (world st)) ->
  TUndelayedDestruction_dtor false st = TUndelayedDestruction_dtor true st.
Proof.
  intros Hfalse.
  destruct (Z.eq_dec (getDestructorGuardCount (world st)) 0) as [Hg | Hg].
  - rewrite (dtor_zero false st Hg), (dtor_zero true st Hg).
    rewrite (Hfalse (destroyNow false)), (Hfalse (destroyNow true)).
    reflexivity.
  - rewrite (dtor_nonzero false st Hg), (dtor_nonzero true st Hg).
    reflexivity.
Qed.

(** X3. A zero guard count does not make up for a base that defers.  When
    [TDD::destroy()] ends in a call of [destroyNow(true)], the destructor
    built without [NDEBUG] is stopped by the failed assertion, in the state
    the base had reached and before the base destructor, while the one
    built with [NDEBUG] goes on into the base destructor from that same
    state. *)
Theorem dtor_deferred_destroyNow st w1 :
  getDestructorGuardCount (world st) = 0 ->
  (forall dn : bool -> M Exn World unit,
      TDD_destroy dn (world st) = dn true w1) ->
  TUndelayedDestruction_dtor false st =
  Terminates Assert_failed
    (mk_machine w1
       (calls st ++ [Call_getDestructorGuardCount; Call_destroy;
                     Call_TDD_destroy]))
  /\ TUndelayedDestruction_dtor true st =
     lift TDD_dtor
       (mk_machine w1
          (calls st ++ [Call_getDestructorGuardCount; Call_destroy;
                        Call_TDD_destroy; Call_TDD_dtor])).
Proof.
  intros Hg Hdefer. split.
  - rewrite (dtor_zero false st Hg), (Hdefer (destroyNow false)).
    reflexivity.
  - rewrite (dtor_zero true st Hg), (Hdefer (destroyNow true)).
    reflexivity.
Qed.

End DestructorProtocol.

Module ProtocolRuns.

Import Sample.

Lemma dtor_builds_agree_witness :
  (forall dn : bool -> M exn object unit,
      base_destroy dn built = base_destroy (fun _ => dn false) built)
  /\ TUndelayedDestruction_dtor (TDD := base) false (mk_machine built []) =
     TUndelayedDestruction_dtor (TDD := base) true (mk_machine built []).
Proof.
  split; [intros dn; reflexivity |].
  apply (dtor_builds_agree (TDD := base) (mk_machine built [])).
  intros dn. reflexivity.
Defined.

Lemma dtor_deferred_destroyNow_witness :
  guardCount_ built = 0
  /\ (forall dn : bool -> M exn object unit,
         deferring_destroy dn built = dn true built)
  /\ TUndelayedDestruction_dtor (TDD := deferring_base) false
       (mk_machine built []) =
     Terminates Assert_failed
       (mk_machine built
          [Call_getDestructorGuardCount; Call_destroy; Call_TDD_destroy])
  /\ TUndelayedDestruction_dtor (TDD := deferring_base) true
       (mk_machine built []) =
     Returns tt
       (mk_machine built
          [Call_getDestructorGuardCount; Call_destroy; Call_TDD_destroy;
           Call_TDD_dtor]).
Proof.
  split; [reflexivity |]. split; [intros dn; reflexivity |].
  apply (dtor_deferred_destroyNow (TDD := deferring_base)
           (mk_machine built []) built).
  - reflexivity.
  - intros dn. reflexivity.
Defined.

End ProtocolRuns.
